(** * bqplot.figure: the [Figure] widget state, over a model of IPython's traits

    [src/bqplot/figure.py] declares one class, [Figure], whose body is a table
    of trait declarations ([Unicode], [List], [Instance], [CFloat], [Bool],
    [Dict], [Float], [Enum]) and two dynamic initialisers,
    [_scale_x_default] and [_scale_y_default].  Everything the class does when
    it is created, read or assigned to is done by the trait descriptors of
    [IPython.utils.traitlets].  The module takes [DOMWidget] and [register]
    from [IPython.html.widgets], the widget package of IPython 3 (later
    releases moved the widgets and the traits out of IPython), so the
    descriptors are embedded here with their IPython 3 behaviour.  Two points
    of it matter below: an [Instance], [List], [Dict] or [Enum] trait allows
    [None] unless the declaration says [allow_none=False], as the class
    does for [axes], [marks] and [legend_location]; and an assignment
    notifies only when the new value differs from the old one.

    The specification speaks of [create(overrides)] and [set(field, value)]:
    these are [Figure(...)], here [create Figure h kw], and the attribute
    assignment [fig.field = value], here [__set__ Figure field value]; its
    ValidationError is the library's [TraitError].

    Layout of the development:
    - [Py]        Python values, binary64 floats, [==], [float()];
    - [Traitlets] trait declarations, [_validate], [__get__], [__set__],
                  [_notify_trait], [on_trait_change], [HasTraits] creation;
    - [bqplot]    the [Figure] class of the source, as a trait table;
    - the vocabulary of the properties, the properties of [Figure], and
      closed runs of them. *)

From Stdlib Require Import ZArith Floats.SpecFloat.
From stdpp Require Import gmap strings list.

Local Open Scope string_scope.
Local Open Scope list_scope.
Local Open Scope Z_scope.
Local Set Warnings "-register-all".

(* ===================================================================== *)
(** * Python values                                                       *)
(* ===================================================================== *)

Module Py.

(** Python's [float] is an IEEE 754 binary64 number. *)
Definition prec : Z := 53.
Definition emax : Z := 1024.

(** Nearest binary64 number to an integer (round half to even); an
    integer of magnitude 2^1024 - 2^970 or more rounds to an infinity. *)
Definition float_of_Z (n : Z) : spec_float :=
  binary_normalize prec emax n 0 false.

(** The float literal [m / 10^k] of the program text, e.g. [0.025] is
    [float_lit 25 3].  Both operands are exact for the literals of the
    source, so the rounded quotient is the literal's value. *)
Definition float_lit (m : Z) (k : nat) : spec_float :=
  SFdiv prec emax (float_of_Z m) (float_of_Z (10 ^ Z.of_nat k)).

(** References to heap objects (instances of user classes). *)
Definition ref := nat.

(** The values that reach a [Figure] attribute.  A [dict] is kept as an
    association list in insertion order, with text keys.  (Byte strings,
    tuples and complex numbers are left out of this universe.) *)
Inductive value :=
| VNone
| VBool (b : bool)
| VInt (n : Z)
| VFloat (x : spec_float)
| VStr (s : string)
| VList (l : list value)
| VDict (d : list (string * value))
| VRef (r : ref).

(** Exceptions that the modelled code can raise. *)
Inductive exn := TraitError | OverflowError | TypeError | ValueError.

(** Classes of the heap objects.  [Scale], [LinearScale] and [Interaction]
    are the classes [figure.py] imports; [Other c] is a class unrelated
    to them. *)
Inductive pyclass :=
| Scale | LinearScale | Interaction | Other (c : string).

(** Modelled from the spec: the classes [Scale] and [LinearScale] of
    [bqplot.scales] are not part of the sources.  The spec calls the
    default of [scale_x] and [scale_y] "a linear scale" stored in a field
    that holds "a Scale object", so [LinearScale] is taken as a subclass
    of [Scale]. *)
Definition issubclass (c k : pyclass) : bool :=
  match c, k with
  | Scale, Scale | LinearScale, LinearScale | LinearScale, Scale
  | Interaction, Interaction => true
  | Other c, Other k => String.eqb c k
  | _, _ => false
  end.

(** A heap object: its class and the keyword arguments it was built
    from. *)
Record pyobj := PyObj {
  obj_class : pyclass;
  obj_kw : list (string * value)
}.

(** The heap grows at its end: the reference of a new object is the
    number of objects allocated before it. *)
Definition heap := list pyobj.

Definition alloc (o : pyobj) (h : heap) : ref * heap :=
  (List.length h, h ++ [o]).

(** [isinstance(v, k)] for a class [k] of heap objects: only a reference
    to a live object whose class is a subclass of [k] is one. *)
Definition isinstance (h : heap) (v : value) (k : pyclass) : bool :=
  match v with
  | VRef r =>
      match h !! r with
      | Some o => issubclass (obj_class o) k
      | None => false
      end
  | _ => false
  end.

(** [d.get(k)] on an association list. *)
Fixpoint dict_get (k : string) (d : list (string * value)) : option value :=
  match d with
  | [] => None
  | (k', v) :: d' => if String.eqb k k' then Some v else dict_get k d'
  end.

(** Exact comparison of a float with an integer, as [==] does. *)
Definition float_eq_Z (x : spec_float) (n : Z) : bool :=
  match x with
  | S754_zero _ => n =? 0
  | S754_finite s m e =>
      let sm := cond_Zopp s (Z.pos m) in
      if 0 <=? e then sm * 2 ^ e =? n else sm =? n * 2 ^ (- e)
  | _ => false
  end.

Definition Z_of_bool (b : bool) : Z := if b then 1 else 0.

(** [a == b].  [bool] is a subclass of [int]; numbers of different types
    compare by value; a NaN differs from itself; lists compare
    element by element, dicts key by key whatever the order; objects of
    the modelled classes define no [__eq__] and compare by identity. *)
Fixpoint py_eq (a b : value) : bool :=
  match a with
  | VNone => match b with VNone => true | _ => false end
  | VBool x =>
      match b with
      | VBool y => Bool.eqb x y
      | VInt n => Z_of_bool x =? n
      | VFloat y => float_eq_Z y (Z_of_bool x)
      | _ => false
      end
  | VInt m =>
      match b with
      | VBool y => m =? Z_of_bool y
      | VInt n => m =? n
      | VFloat y => float_eq_Z y m
      | _ => false
      end
  | VFloat x =>
      match b with
      | VBool y => float_eq_Z x (Z_of_bool y)
      | VInt n => float_eq_Z x n
      | VFloat y => SFeqb x y
      | _ => false
      end
  | VStr s => match b with VStr t => String.eqb s t | _ => false end
  | VList l =>
      match b with
      | VList l' =>
          (fix all2 (l l' : list value) : bool :=
             match l, l' with
             | [], [] => true
             | x :: l, y :: l' => py_eq x y && all2 l l'
             | _, _ => false
             end) l l'
      | _ => false
      end
  | VDict d =>
      match b with
      | VDict d' =>
          Nat.eqb (List.length d) (List.length d') &&
          (fix all (d : list (string * value)) : bool :=
             match d with
             | [] => true
             | (k, v) :: d =>
                 match dict_get k d' with
                 | Some w => py_eq v w
                 | None => false
                 end && all d
             end) d
      | _ => false
      end
  | VRef r => match b with VRef r' => Nat.eqb r r' | _ => false end
  end.

(** [x in l] for a list [l]. *)
Definition py_in (x : value) (l : list value) : bool :=
  existsb (fun e => py_eq e x) l.

(** [float(s)] for a text [s]: the number that [s] spells, or [None]
    where Python raises [ValueError].  The parser belongs to the
    interpreter and is left abstract. *)
Class FloatParser := float_of_str : string -> option spec_float.

(** [float(v)]. *)
Definition py_float `{FloatParser} (v : value) : exn + spec_float :=
  match v with
  | VFloat x => inr x
  | VInt n =>
      match float_of_Z n with
      | S754_infinity _ => inl OverflowError
      | x => inr x
      end
  | VBool b => inr (float_of_Z (Z_of_bool b))
  | VStr s =>
      match float_of_str s with
      | Some x => inr x
      | None => inl ValueError
      end
  | VNone | VList _ | VDict _ | VRef _ => inl TypeError
  end.

End Py.

(* ===================================================================== *)
(** * IPython.utils.traitlets                                             *)
(* ===================================================================== *)

Module Traitlets.
Import Py.

(** ** Trait declarations *)

(** The trait classes that [figure.py] imports. *)
Inductive trait_kind :=
| Unicode
| List
| Instance (klass : pyclass)
| CFloat
| Bool
| Dict
| Float
| Enum (values : list value).

(** One declaration of a class body, [Kind(default_value, allow_none=..)].
    An argument that the declaration leaves out is [None] here.  The
    metadata keywords ([sync], [exposed], [display_index],
    [display_name]) are kept by the descriptor and read by the widget
    layer only; they play no part in reading or assigning. *)
Record TraitType := Trait {
  kind : trait_kind;
  default_value : option value;
  allow_none : option bool
}.

(** [self.allow_none]: the keyword when given; otherwise [True] from the
    signature of [Instance.__init__] and of its subclasses' ([List],
    [Dict]) and of [Enum.__init__], and the class attribute
    [TraitType.allow_none = False] for the other kinds. *)
Definition trait_allow_none (t : TraitType) : bool :=
  match allow_none t with
  | Some b => b
  | None =>
      match kind t with
      | List | Instance _ | Dict | Enum _ => true
      | Unicode | CFloat | Bool | Float => false
      end
  end.

(** [get_default_value]: the declared default, or the one of the trait
    class ([u''], [0.0], [False], an empty list or dict, and [None] for
    an [Enum] and for an [Instance] declared without [args] and [kw]). *)
Definition get_default_value (t : TraitType) : value :=
  match kind t with
  | Instance _ => VNone
  | k =>
      match default_value t with
      | Some v => v
      | None =>
          match k with
          | Unicode => VStr ""
          | List => VList []
          | CFloat | Float => VFloat (float_lit 0 0)
          | Bool => VBool false
          | Dict => VDict []
          | Instance _ | Enum _ => VNone
          end
      end
  end.

Section Descriptors.
Context `{FloatParser}.

(** [self.validate(obj, value)], one trait class after the other;
    [self.error(obj, value)] raises [TraitError].

    - [Unicode], [Bool], [List], [Dict], [Instance] test [isinstance];
    - [Float] returns a float as it is and an [int] (so a [bool] too)
      as [float(value)], outside any [try];
    - [CFloat] returns [float(value)] and turns every exception into a
      [TraitError];
    - [Enum] tests [value in self.values].

    A [List] declared without element trait and with the default
    length bounds ([0] and [sys.maxsize]) keeps every list. *)
Definition validate (h : heap) (t : TraitType) (v : value)
  : exn + value :=
  match kind t with
  | Unicode => match v with VStr _ => inr v | _ => inl TraitError end
  | Bool => match v with VBool _ => inr v | _ => inl TraitError end
  | List => match v with VList _ => inr v | _ => inl TraitError end
  | Dict => match v with VDict _ => inr v | _ => inl TraitError end
  | Instance klass =>
      if isinstance h v klass then inr v else inl TraitError
  | Float =>
      match v with
      | VFloat _ => inr v
      | VInt _ | VBool _ =>
          match py_float v with
          | inr x => inr (VFloat x)
          | inl e => inl e
          end
      | _ => inl TraitError
      end
  | CFloat =>
      match py_float v with
      | inr x => inr (VFloat x)
      | inl _ => inl TraitError
      end
  | Enum values =>
      if py_in v values then inr v else inl TraitError
  end.

(** [TraitType._validate]: [None] passes when the trait allows it,
    anything else goes through [validate].  ([Figure] defines no
    [_<name>_validate] hook, so the lookup of one always fails.) *)
Definition _validate (h : heap) (t : TraitType) (v : value)
  : exn + value :=
  match v with
  | VNone => if trait_allow_none t then inr v else validate h t v
  | _ => validate h t v
  end.

End Descriptors.

(** ** Instances of a [HasTraits] class *)

(** A class with traits: the names [dir(cls)] lists, the declaration
    behind each name, and the [_<name>_default] method of the names that
    have one. *)
Record HasTraitsClass (name : Type) := ClassBody {
  dir : list name;
  trait : name -> TraitType;
  dyn_init : name -> option (heap -> value * heap)
}.
Arguments ClassBody {name}.
Arguments dir {name}.
Arguments trait {name}.
Arguments dyn_init {name}.

(** A handler registered with [on_trait_change], and one call
    [c(name, old, new)] it received.  A handler is known by the calls it
    receives: what it does with a call is its own business, and a handler
    declared with fewer parameters is passed the first of these arguments
    only. *)
Definition handler := nat.

Record call (name : Type) := Call {
  callee : handler;
  call_name : name;
  call_old : value;
  call_new : value
}.
Arguments Call {name}.
Arguments callee {name}.
Arguments call_name {name}.
Arguments call_old {name}.
Arguments call_new {name}.

Section HasTraits.
Context `{FloatParser} {name : Type} `{Countable name}.

(** The interpreter state that one instance lives in: the heap, the
    instance's [_trait_values] and [_trait_notifiers] (key [None] is
    the library's ['anytrait']), and the calls its handlers received,
    oldest first. *)
Record world := World {
  objects : heap;
  _trait_values : gmap name value;
  _trait_notifiers : gmap (option name) (list handler);
  calls : list (call name)
}.

(** Computations that read and write the world and may raise; a raise
    keeps the world as it is at that point. *)
Definition M (A : Type) : Type := world -> (exn + A) * world.

Definition ret {A} (a : A) : M A := fun w => (inr a, w).
Definition raise {A} (e : exn) : M A := fun w => (inl e, w).
Definition bind {A B} (m : M A) (k : A -> M B) : M B :=
  fun w =>
    match m w with
    | (inr a, w') => k a w'
    | (inl e, w') => (inl e, w')
    end.
Definition lift {A} (r : exn + A) : M A := fun w => (r, w).
Definition gets {A} (f : world -> A) : M A := fun w => (inr (f w), w).
Definition modify (f : world -> world) : M unit :=
  fun w => (inr tt, f w).

Notation "x <- m ;; k" := (bind m (fun x => k))
  (at level 100, m at next level, right associativity).
Notation "m ;;; k" := (bind m (fun _ => k))
  (at level 100, right associativity).

Fixpoint for_each {A} (f : A -> M unit) (l : list A) : M unit :=
  match l with
  | [] => ret tt
  | a :: l => f a ;;; for_each f l
  end.

(** [obj._trait_values[name] = value] *)
Definition store (n : name) (v : value) (w : world) : world :=
  World (objects w) (<[n := v]> (_trait_values w))
        (_trait_notifiers w) (calls w).

(** Running a [_<name>_default] method, which may allocate. *)
Definition call_method (m : heap -> value * heap) : M value :=
  fun w =>
    let '(v, h) := m (objects w) in
    (inr v, World h (_trait_values w) (_trait_notifiers w) (calls w)).

Definition validated (t : TraitType) (v : value) : M value :=
  h <- gets objects ;; lift (_validate h t v).

(** [HasTraits._notify_trait]: the handlers registered for the name,
    then those registered for any trait, each list in registration
    order, are called with [(name, old, new)].  ([Figure] defines no
    [_<name>_changed] method, so no static handler follows.) *)
Definition _notify_trait (n : name) (old_value new_value : value)
  : M unit :=
  ns <- gets _trait_notifiers ;;
  let callables :=
    default [] (ns !! Some n) ++ default [] (ns !! None) in
  modify (fun w =>
    World (objects w) (_trait_values w) (_trait_notifiers w)
          (calls w ++
           map (fun c => Call c n old_value new_value) callables)).

(** [HasTraits.on_trait_change(handler, name)], [name=None] standing
    for any trait: the handler joins the end of the list of that name
    unless it is in it already. *)
Definition on_trait_change (c : handler) (n : option name) : M unit :=
  modify (fun w =>
    let nlist := default [] (_trait_notifiers w !! n) in
    let nlist' :=
      if bool_decide (c ∈ nlist) then nlist else nlist ++ [c] in
    World (objects w) (_trait_values w)
          (<[n := nlist']> (_trait_notifiers w)) (calls w)).

Variable cls : HasTraitsClass name.

(** [TraitType.__get__]: the stored value; for a name not stored yet,
    the value of its dynamic initialiser, validated, then stored. *)
Definition __get__ (n : name) : M value :=
  vs <- gets _trait_values ;;
  match vs !! n with
  | Some v => ret v
  | None =>
      match dyn_init cls n with
      | Some method =>
          v <- call_method method ;;
          v <- validated (trait cls n) v ;;
          modify (store n v) ;;;
          ret v
      | None => raise TraitError
      end
  end.

(** [TraitType.__set__]: validate, take the old value ([None] when
    nothing is stored), store, and notify unless [old == new]. *)
Definition __set__ (n : name) (v : value) : M unit :=
  new_value <- validated (trait cls n) v ;;
  vs <- gets _trait_values ;;
  let old_value := default VNone (vs !! n) in
  modify (store n new_value) ;;;
  if py_eq old_value new_value then ret tt
  else _notify_trait n old_value new_value.

(** [TraitType.set_default_value]: a name with a [_<name>_default]
    method is left for [__get__]; any other gets its validated static
    default, without notification. *)
Definition set_default_value (n : name) : M unit :=
  match dyn_init cls n with
  | Some _ => ret tt
  | None =>
      newdv <- validated (trait cls n) (get_default_value (trait cls n)) ;;
      modify (store n newdv)
  end.

(** [HasTraits.__new__] then [HasTraits.__init__] with keywords [kw], on
    a heap [h]:
    every trait of [dir(cls)] is initialised, then every keyword is
    assigned with [setattr], in the order of [kw]. *)
Definition __new__ : M unit := for_each set_default_value (dir cls).

Definition __init__ (kw : list (name * value)) : M unit :=
  for_each (fun kv => __set__ (fst kv) (snd kv)) kw.

Definition create (h : heap) (kw : list (name * value))
  : (exn + unit) * world :=
  (__new__ ;;; __init__ kw) (World h ∅ ∅ []).

End HasTraits.

Arguments world name {_ _}.
Arguments M name {_ _} A.

End Traitlets.

(* ===================================================================== *)
(** * bqplot.figure                                                       *)
(* ===================================================================== *)

Module bqplot.
Import Py Traitlets.

(** The traits that the body of [class Figure] declares, in the order
    of the source.  (The traits that [Figure] inherits from [DOMWidget]
    are declared outside the source and are left out.) *)
Inductive trait_name :=
| _view_name
| title | axes | marks | interaction | scale_x | scale_y
| min_width | min_height | preserve_aspect
| fig_margin | padding_x | padding_y | legend_location.

#[global] Instance trait_name_eq_dec : EqDecision trait_name.
Proof. solve_decision. Defined.

Definition trait_name_index (n : trait_name) : nat :=
  match n with
  | _view_name => 0 | title => 1 | axes => 2 | marks => 3
  | interaction => 4 | scale_x => 5 | scale_y => 6 | min_width => 7
  | min_height => 8 | preserve_aspect => 9 | fig_margin => 10
  | padding_x => 11 | padding_y => 12 | legend_location => 13
  end%nat.

Definition trait_names : list trait_name :=
  [_view_name; title; axes; marks; interaction; scale_x; scale_y;
   min_width; min_height; preserve_aspect; fig_margin; padding_x;
   padding_y; legend_location].

#[global] Program Instance trait_name_countable : Countable trait_name :=
  inj_countable trait_name_index (fun i => trait_names !! i) _.
Next Obligation. by intros []. Qed.

(** Modelled from the spec: the constructor of [LinearScale] lives in
    [bqplot.scales], which is not part of the sources.  The spec describes
    its result as a linear scale with a domain minimum and maximum: a new
    object of class [LinearScale] that holds the keywords it was built
    from. *)
Definition new_LinearScale (kw : list (string * value)) (h : heap)
  : value * heap :=
  let '(r, h') := alloc (PyObj LinearScale kw) h in (VRef r, h').

(** [def _scale_x_default(self): return LinearScale(min=0, max=1)] *)
Definition _scale_x_default : heap -> value * heap :=
  new_LinearScale [("min", VInt 0); ("max", VInt 1)].

(** [def _scale_y_default(self): return LinearScale(min=0, max=1)] *)
Definition _scale_y_default : heap -> value * heap :=
  new_LinearScale [("min", VInt 0); ("max", VInt 1)].

(** The eight places of the legend. *)
Definition legend_locations : list string :=
  ["top-right"; "top"; "top-left"; "left";
   "bottom-left"; "bottom"; "bottom-right"; "right"].

(** The declarations of the class body, line by line. *)
Definition Figure_trait (n : trait_name) : TraitType :=
  match n with
  | _view_name => Trait Unicode (Some (VStr "bqplot.Figure")) None
  | title => Trait Unicode None None
  | axes => Trait List None (Some false)
  | marks => Trait List None (Some false)
  | interaction => Trait (Instance Interaction) None (Some true)
  | scale_x => Trait (Instance Scale) None None
  | scale_y => Trait (Instance Scale) None None
  | min_width => Trait CFloat (Some (VFloat (float_lit 8000 1))) None
  | min_height => Trait CFloat (Some (VFloat (float_lit 6000 1))) None
  | preserve_aspect => Trait Bool (Some (VBool false)) None
  | fig_margin =>
      Trait Dict
        (Some (VDict [("top", VInt 60); ("bottom", VInt 60);
                      ("left", VInt 60); ("right", VInt 60)]))
        None
  | padding_x => Trait Float (Some (VFloat (float_lit 0 1))) None
  | padding_y => Trait Float (Some (VFloat (float_lit 25 3))) None
  | legend_location =>
      Trait (Enum (map VStr legend_locations))
            (Some (VStr "top-right")) (Some false)
  end.

Definition Figure_dyn_init (n : trait_name)
  : option (heap -> value * heap) :=
  match n with
  | scale_x => Some _scale_x_default
  | scale_y => Some _scale_y_default
  | _ => None
  end.

(** [dir(Figure)] lists the names in alphabetical order. *)
Definition Figure : HasTraitsClass trait_name :=
  ClassBody
    [_view_name; axes; fig_margin; interaction; legend_location; marks;
     min_height; min_width; padding_x; padding_y; preserve_aspect;
     scale_x; scale_y; title]
    Figure_trait Figure_dyn_init.

End bqplot.

(* ===================================================================== *)
(** * The vocabulary of the properties                                    *)
(* ===================================================================== *)

Import Py Traitlets bqplot.

(** The state that a [Figure] instance lives in. *)
Abbreviation figure := (world trait_name).

(** ** One assignment *)

(** The calls that an assignment adds for the stored change [old -> new]
    of the field [n]. *)
Definition notified (w : figure) (n : trait_name) (old new : value)
  : list (call trait_name) :=
  if py_eq old new then []
  else map (fun c => Call c n old new)
           (default [] (_trait_notifiers w !! Some n) ++
            default [] (_trait_notifiers w !! None)).

(** The state after a successful assignment of the validated [new]. *)
Definition assigned (w : figure) (n : trait_name) (new : value) : figure :=
  World (objects w) (<[n := new]> (_trait_values w)) (_trait_notifiers w)
        (calls w ++
         notified w n (default VNone (_trait_values w !! n)) new).

(** ** A new figure *)

(** The static defaults that [__new__] stores; [scale_x] and [scale_y]
    have a dynamic initialiser and are stored at their first read. *)
Definition static_defaults : gmap trait_name value :=
  list_to_map
    [(_view_name, VStr "bqplot.Figure");
     (title, VStr "");
     (axes, VList []);
     (marks, VList []);
     (interaction, VNone);
     (min_width, VFloat (float_lit 8000 1));
     (min_height, VFloat (float_lit 6000 1));
     (preserve_aspect, VBool false);
     (fig_margin, VDict [("top", VInt 60); ("bottom", VInt 60);
                          ("left", VInt 60); ("right", VInt 60)]);
     (padding_x, VFloat (float_lit 0 1));
     (padding_y, VFloat (float_lit 25 3));
     (legend_location, VStr "top-right")].

(** The figure that [Figure()] builds on a heap [h]. *)
Definition fresh (h : heap) : figure := World h static_defaults ∅ [].

(** The defaults as the specification documents them: title [""], axes
    and marks [[]], interaction absent, min_width [800.0], min_height
    [600.0], preserve_aspect false, fig_margin 60 on each side, padding_x
    [0.0], padding_y [0.025], legend_location ["top-right"].  (The
    specification documents no stored default for the scales.) *)
Definition documented_default (n : trait_name) : option value :=
  match n with
  | title => Some (VStr "")
  | axes | marks => Some (VList [])
  | interaction => Some VNone
  | min_width => Some (VFloat (float_of_Z 800))
  | min_height => Some (VFloat (float_of_Z 600))
  | preserve_aspect => Some (VBool false)
  | fig_margin =>
      Some (VDict [("top", VInt 60); ("bottom", VInt 60);
                   ("left", VInt 60); ("right", VInt 60)])
  | padding_x => Some (VFloat (float_of_Z 0))
  | padding_y => Some (VFloat (float_lit 25 3))
  | legend_location => Some (VStr "top-right")
  | _view_name | scale_x | scale_y => None
  end.

(** ** The scales *)

(** The object that [LinearScale(min=0, max=1)] builds. *)
Definition default_scale : pyobj :=
  PyObj LinearScale [("min", VInt 0); ("max", VInt 1)].

Definition is_scale (n : trait_name) : bool :=
  match n with scale_x | scale_y => true | _ => false end.

(** What a session does with a figure: read a field, assign to a field,
    register a handler.  An operation that raises leaves the state it
    raised in. *)
Inductive op :=
| Get (n : trait_name)
| Set_ (n : trait_name) (v : value)
| Observe (c : handler) (n : option trait_name).

Definition exec `{FloatParser} (o : op) (w : figure) : figure :=
  match o with
  | Get n => snd (__get__ Figure n w)
  | Set_ n v => snd (__set__ Figure n v w)
  | Observe c n => snd (on_trait_change c n w)
  end.



(** ** Inputs of the closed runs *)

(** The closed runs hand no text to a casting float, so [float] never
    reads a text in them; they are stated for the interpreter whose
    [float] refuses every text. *)
Definition no_text : FloatParser := fun _ => None.

(** A handler, and keyword overrides for a creation. *)
Definition on_title : handler := 0%nat.

Definition some_kw : list (trait_name * value) :=
  [(title, VStr "Revenue"); (min_width, VInt 500);
   (legend_location, VStr "bottom")].

(** [{top: 10, bottom: 10, left: 10}], a dict without the key ["right"]. *)
Definition margin_without_right : list (string * value) :=
  [("top", VInt 10); ("bottom", VInt 10); ("left", VInt 10)].

(** A new figure with one handler registered for [title]. *)
Definition observed : figure :=
  snd (@on_trait_change trait_name _ _ on_title (Some title) (fresh [])).

(** The assignment of ["Revenue"] to the title of that figure. *)
Definition set_title : (exn + unit) * figure :=
  @__set__ no_text trait_name _ _ Figure title (VStr "Revenue") observed.

(** A session that reads, assigns and registers, and whose assignment of
    an integer to [scale_y] is rejected. *)
Definition some_session : list op :=
  [Get scale_x; Set_ title (VStr "Revenue"); Set_ scale_y (VInt 3);
   Observe on_title None; Get scale_y].

(** ** The states of a figure *)

(** The states that a figure goes through: it is created, with or without
    keywords, and then read, assigned to and observed. *)
Inductive reachable `{FloatParser} : figure -> Prop :=
| reach_create (h : heap) (kw : list (trait_name * value)) (w : figure) :
    create Figure h kw = (inr tt, w) -> reachable w
| reach_exec (o : op) (w : figure) :
    reachable w -> reachable (exec o w).

(** Every field with a static default is stored. *)
Definition stored_static (w : figure) : Prop :=
  forall n, is_scale n = false -> is_Some (_trait_values w !! n).

(** Every stored value passes the constraint of its field unchanged. *)
Definition stored_valid `{FloatParser} (w : figure) : Prop :=
  forall n v,
    _trait_values w !! n = Some v ->
    _validate (objects w) (Figure_trait n) v = inr v.

(** A reference to a live object of one of the classes [ks]. *)
Definition live_instance (w : figure) (ks : list pyclass) (v : value) : Prop :=
  exists r o, v = VRef r /\ objects w !! r = Some o /\ In (obj_class o) ks.

(** A heap with one scale and one interaction, and a not-a-number. *)
Definition two_objects : heap :=
  [PyObj LinearScale [("min", VInt 2); ("max", VInt 5)];
   PyObj Interaction []].

Definition nan : value := VFloat S754_nan.

(** Keywords with a rejected legend place, and the keywords [some_kw] in
    another order. *)
Definition bad_kw : list (trait_name * value) :=
  [(title, VStr "Revenue"); (legend_location, VStr "center")].

Definition some_kw_reordered : list (trait_name * value) :=
  [(legend_location, VStr "bottom"); (title, VStr "Revenue");
   (min_width, VInt 500)].

(** The state of a figure that has no handler and has made no call, on
    the heap [h]. *)
Definition quiet (h : heap) (w : figure) : Prop :=
  objects w = h /\ _trait_notifiers w = ∅ /\ calls w = [].

(** The state after the creation with [some_kw] and the session
    [some_session], and the first read of [scale_x] on a new figure. *)
Definition session_state : figure :=
  fold_left (fun w o => @exec no_text o w) some_session
    (snd (@create no_text trait_name _ _ Figure [] some_kw)).

Definition read_scale_x : (exn + value) * figure :=
  @__get__ no_text trait_name _ _ Figure scale_x (fresh []).

(* ===================================================================== *)
(** * Properties of [Figure]                                              *)
(* ===================================================================== *)

Section FigureFacts.
Context `{FloatParser}.

(** ** What one assignment does *)

Lemma set_unfold (n : trait_name) (v : value) (w : figure) :
  __set__ Figure n v w =
  match _validate (objects w) (Figure_trait n) v with
  | inl e => (inl e, w)
  | inr new => (inr tt, assigned w n new)
  end.
Proof.
  unfold __set__, validated, bind, gets, lift, modify, assigned, notified.
  cbn [trait Figure].
  destruct (_validate (objects w) (Figure_trait n) v) as [e|new]; [done|].
  cbn. destruct (py_eq _ new); cbn; [|done].
  unfold ret, store. by rewrite app_nil_r.
Qed.

Lemma set_ok (n : trait_name) (v : value) (w w' : figure) :
  __set__ Figure n v w = (inr tt, w') ->
  exists new, _validate (objects w) (Figure_trait n) v = inr new /\
              w' = assigned w n new.
Proof.
  rewrite set_unfold.
  destruct (_validate _ _ v) as [e|new]; [done|].
  intros [= <-]. by exists new.
Qed.

Lemma set_fails (n : trait_name) (v : value) (w w' : figure) (e : exn) :
  __set__ Figure n v w = (inl e, w') ->
  _validate (objects w) (Figure_trait n) v = inl e /\ w' = w.
Proof.
  rewrite set_unfold.
  destruct (_validate _ _ v) as [e'|new]; [|done].
  by intros [= -> <-].
Qed.

(** ** A figure created without keywords *)

Lemma new_Figure (h : heap) :
  __new__ Figure (World h ∅ ∅ []) = (inr tt, World h static_defaults ∅ []).
Proof. vm_compute. reflexivity. Qed.

Lemma create_no_kw (h : heap) : create Figure h [] = (inr tt, fresh h).
Proof. unfold create, bind. rewrite new_Figure. reflexivity. Qed.

(** ** Equality with a text, membership in a list of texts *)

Lemma py_eq_VStr (s : string) (v : value) :
  py_eq (VStr s) v = true <-> v = VStr s.
Proof.
  destruct v; cbn; try (split; [discriminate|discriminate]).
  rewrite String.eqb_eq. split; [by intros -> | by intros [= ->]].
Qed.

Lemma py_in_texts (v : value) (l : list string) :
  py_in v (map VStr l) = true <-> exists s, In s l /\ v = VStr s.
Proof.
  unfold py_in. rewrite existsb_exists. split.
  - intros (x & Hx & Heq). apply in_map_iff in Hx as (s & <- & Hs).
    apply py_eq_VStr in Heq. eauto.
  - intros (s & Hs & ->). exists (VStr s). split.
    + by apply in_map.
    + by apply py_eq_VStr.
Qed.

(** ** Assignments that fail *)


(** ** Assignments that succeed *)

(** C9.  A successful assignment to the field [n] leaves every other
    field as it was, stored or not yet stored; it also leaves the heap and
    the registered handlers as they were. *)
Theorem C9_set_changes_only_named_field
    (n : trait_name) (v : value) (w w' : figure) :
  __set__ Figure n v w = (inr tt, w') ->
  (forall m : trait_name,
      m <> n -> _trait_values w' !! m = _trait_values w !! m) /\
  objects w' = objects w /\
  _trait_notifiers w' = _trait_notifiers w.
Proof.
  intros (new & _ & ->)%set_ok. cbn. split; [|done].
  intros m Hm. by rewrite lookup_insert_ne.
Qed.


(** ** The constraint of each field *)

Lemma validate_legend_location (h : heap) (v : value) :
  _validate h (Figure_trait legend_location) v =
  if py_in v (map VStr legend_locations) then inr v else inl TraitError.
Proof. by destruct v. Qed.

Lemma validate_list (h : heap) (n : trait_name) (v : value) :
  n = axes \/ n = marks ->
  _validate h (Figure_trait n) v =
  match v with VList _ => inr v | _ => inl TraitError end.
Proof. intros [-> | ->]; by destruct v. Qed.

Lemma validate_fig_margin (h : heap) (v : value) :
  _validate h (Figure_trait fig_margin) v =
  match v with VDict _ | VNone => inr v | _ => inl TraitError end.
Proof. by destruct v. Qed.

Lemma validate_casting (h : heap) (n : trait_name) (v : value) :
  n = min_width \/ n = min_height ->
  _validate h (Figure_trait n) v =
  match py_float v with inr x => inr (VFloat x) | inl _ => inl TraitError end.
Proof. intros [-> | ->]; by destruct v. Qed.

(** C4.  An assignment to [legend_location] succeeds exactly when the
    value is one of the eight texts of the enumeration, and otherwise fails
    with [TraitError] without changing the figure; ["top-right"] is
    accepted and ["center"] is rejected. *)
Theorem C4_legend_location_enumeration (v : value) (w : figure) :
  (fst (__set__ Figure legend_location v w) = inr tt <->
   exists s : string,
     In s ["top-right"; "top"; "top-left"; "left";
           "bottom-left"; "bottom"; "bottom-right"; "right"] /\
     v = VStr s) /\
  (fst (__set__ Figure legend_location v w) <> inr tt ->
   __set__ Figure legend_location v w = (inl TraitError, w)) /\
  fst (__set__ Figure legend_location (VStr "top-right") w) = inr tt /\
  __set__ Figure legend_location (VStr "center") w = (inl TraitError, w).
Proof.
  rewrite !set_unfold, !validate_legend_location.
  pose proof (py_in_texts v legend_locations) as Hin.
  destruct (py_in v (map VStr legend_locations)); cbn.
  - repeat split; try done. intros _. by apply Hin.
  - repeat split; try done. intros Hex. apply Hin in Hex. done.
Qed.

(** C5.  Assigning [None] to [axes] or to [marks] fails with [TraitError]
    and changes nothing; assigning the empty list succeeds, and the field
    then holds the empty list, a value different from [None]. *)
Theorem C5_axes_marks_reject_null (w : figure) :
  __set__ Figure axes VNone w = (inl TraitError, w) /\
  __set__ Figure marks VNone w = (inl TraitError, w) /\
  (exists w', __set__ Figure axes (VList []) w = (inr tt, w') /\
              _trait_values w' !! axes = Some (VList [])) /\
  (exists w', __set__ Figure marks (VList []) w = (inr tt, w') /\
              _trait_values w' !! marks = Some (VList [])) /\
  VList [] <> VNone /\ py_eq (VList []) VNone = false.
Proof.
  rewrite !set_unfold. cbn. repeat split; try done.
  - eexists. split; [done|]. cbn. by rewrite lookup_insert_eq.
  - eexists. split; [done|]. cbn. by rewrite lookup_insert_eq.
Qed.

(** C3, as amended.  An assignment to [fig_margin] succeeds for every
    dict, whatever its keys and values, and stores that dict; it fails with
    [TraitError], changing nothing, for every value that is neither a dict
    nor [None]. *)
Theorem C3_fig_margin_any_dict (w : figure) :
  (forall d : list (string * value),
      exists w', __set__ Figure fig_margin (VDict d) w = (inr tt, w') /\
                 _trait_values w' !! fig_margin = Some (VDict d)) /\
  (forall v : value,
      v <> VNone -> (forall d, v <> VDict d) ->
      __set__ Figure fig_margin v w = (inl TraitError, w)).
Proof.
  split.
  - intros d. rewrite set_unfold, validate_fig_margin.
    eexists. split; [done|]. cbn. by rewrite lookup_insert_eq.
  - intros v Hnone Hdict. rewrite set_unfold, validate_fig_margin.
    destruct v; try done. by destruct (Hdict d).
Qed.

(** C10, as amended.  [min_width] and [min_height] are casting floats
    ([CFloat]) and [padding_x], [padding_y] plain floats ([Float]).  An
    assignment to a casting float stores [float(v)] whenever [float(v)]
    exists, and fails with [TraitError] otherwise: every float and every
    boolean is accepted, the integer [500] is stored as [500.0], an integer
    is accepted unless it is too large for a float (as [2 ** 1024] is),
    and a text is accepted when it spells a number.  A plain float rejects
    every text. *)
Theorem C10_casting_floats (n : trait_name) (w : figure) :
  n = min_width \/ n = min_height ->
  kind (Figure_trait n) = CFloat /\
  kind (Figure_trait padding_x) = Float /\
  kind (Figure_trait padding_y) = Float /\
  (forall (v : value) (x : spec_float),
      py_float v = inr x ->
      exists w', __set__ Figure n v w = (inr tt, w') /\
                 _trait_values w' !! n = Some (VFloat x)) /\
  (forall (v : value) (e : exn),
      py_float v = inl e -> __set__ Figure n v w = (inl TraitError, w)) /\
  (forall x : spec_float, py_float (VFloat x) = inr x) /\
  (forall b : bool, py_float (VBool b) = inr (float_of_Z (Z_of_bool b))) /\
  (forall k : Z,
      py_float (VInt k) =
      match float_of_Z k with
      | S754_infinity _ => inl OverflowError
      | x => inr x
      end) /\
  py_float (VInt 500) = inr (float_lit 5000 1) /\
  py_float (VInt (2 ^ 1024)) = inl OverflowError /\
  (forall s : string,
      __set__ Figure padding_x (VStr s) w = (inl TraitError, w) /\
      __set__ Figure padding_y (VStr s) w = (inl TraitError, w)).
Proof.
  intros Hn.
  split; [by destruct Hn as [-> | ->]|].
  do 2 (split; [done|]).
  split.
  { intros v x Hx. rewrite set_unfold, (validate_casting _ _ _ Hn), Hx.
    eexists. split; [done|]. cbn. by rewrite lookup_insert_eq. }
  split.
  { intros v e He. by rewrite set_unfold, (validate_casting _ _ _ Hn), He. }
  do 3 (split; [done|]).
  split; [by vm_compute|]. split; [by vm_compute|].
  intros s. by rewrite !set_unfold.
Qed.

(** ** Reading a field *)

Lemma get_stored (n : trait_name) (v : value) (w : figure) :
  _trait_values w !! n = Some v -> __get__ Figure n w = (inr v, w).
Proof. intros Hv. unfold __get__, bind, gets. by rewrite Hv. Qed.

Lemma get_not_stored (n : trait_name) (w : figure) :
  _trait_values w !! n = None ->
  __get__ Figure n w =
  if is_scale n then
    (inr (VRef (List.length (objects w))),
     World (objects w ++ [default_scale])
           (<[n := VRef (List.length (objects w))]> (_trait_values w))
           (_trait_notifiers w) (calls w))
  else (inl TraitError, w).
Proof.
  intros Hv. unfold __get__, bind, gets. rewrite Hv.
  destruct n; try reflexivity.
  all: cbn; unfold validated, bind, gets, lift, call_method; cbn;
    unfold isinstance;
    by rewrite (list_lookup_middle (objects w) [] default_scale).
Qed.

(** C2.  On a figure created without keywords, reading [scale_x] and then
    [scale_y] gives two references to two different objects, each of class
    [LinearScale] built with [min=0] and [max=1]; reading a scale again
    gives the same object. *)
Theorem C2_default_scales_are_distinct (h : heap) :
  exists (w0 w : figure) (rx ry : ref),
    create Figure h [] = (inr tt, w0) /\
    bind (__get__ Figure scale_x)
         (fun x => bind (__get__ Figure scale_y) (fun y => ret (x, y))) w0 =
      (inr (VRef rx, VRef ry), w) /\
    rx <> ry /\
    objects w !! rx = Some (PyObj LinearScale [("min", VInt 0); ("max", VInt 1)]) /\
    objects w !! ry = Some (PyObj LinearScale [("min", VInt 0); ("max", VInt 1)]) /\
    __get__ Figure scale_x w = (inr (VRef rx), w) /\
    __get__ Figure scale_y w = (inr (VRef ry), w).
Proof.
  eexists _, _, _, _. split; [apply create_no_kw|].
  unfold bind at 1. rewrite (get_not_stored scale_x) by done. cbn [is_scale].
  unfold bind at 1. rewrite (get_not_stored scale_y) by done. cbn [is_scale].
  unfold bind, ret. cbn [objects fresh _trait_values].
  split; [reflexivity|].
  rewrite !length_app. cbn [List.length].
  split; [lia|]. cbn [objects].
  split; [rewrite <- app_assoc; by apply list_lookup_middle|].
  split; [apply list_lookup_middle; rewrite length_app; cbn; lia|].
  split; apply get_stored; cbn [_trait_values].
  - by rewrite lookup_insert_ne, lookup_insert_eq.
  - by rewrite lookup_insert_eq.
Qed.

(** ** Creation with keywords *)

Lemma documented_default_stored (n : trait_name) (d : value) :
  documented_default n = Some d -> static_defaults !! n = Some d.
Proof. destruct n; intros [= <-]; by vm_compute. Qed.

(** A validated value is the value itself, except that the four float
    traits store [float(v)]. *)
Lemma validate_result (h : heap) (n : trait_name) (v new : value) :
  _validate h (Figure_trait n) v = inr new ->
  new = v \/
  (In (kind (Figure_trait n)) [CFloat; Float] /\
   exists x, py_float v = inr x /\ new = VFloat x).
Proof.
  unfold _validate, validate, trait_allow_none.
  destruct n; cbn [Figure_trait kind allow_none];
    destruct v; intros Hv; repeat case_match; simplify_eq;
    try (by left); right; (split; [cbn [In]; tauto|]); eauto.
Qed.

Lemma init_kw (kw : list (trait_name * value)) (w : figure) :
  NoDup kw.*1 ->
  (forall n v, (n, v) ∈ kw ->
     exists new, _validate (objects w) (Figure_trait n) v = inr new) ->
  exists w',
    __init__ Figure kw w = (inr tt, w') /\
    objects w' = objects w /\
    (forall n v, (n, v) ∈ kw ->
       exists new, _validate (objects w) (Figure_trait n) v = inr new /\
                   _trait_values w' !! n = Some new) /\
    (forall n, n ∉ kw.*1 -> _trait_values w' !! n = _trait_values w !! n).
Proof.
  revert w. induction kw as [|[n v] kw IH]; intros w Hnd Hval.
  - exists w. repeat split; try done. intros n v Hin. by apply elem_of_nil in Hin.
  - cbn in Hnd. apply NoDup_cons in Hnd as [Hn Hnd].
    destruct (Hval n v) as [new Hnew]; [by left|].
    destruct (IH (assigned w n new) Hnd) as (w' & Hrun & Hobj & Hin & Hout).
    { intros m u Hm. apply Hval. by right. }
    exists w'. split.
    { unfold __init__ in *. cbn [for_each]. unfold bind at 1. cbn [fst snd].
      by rewrite set_unfold, Hnew. }
    split; [done|]. split.
    + intros m u [[= -> ->] | Hm]%elem_of_cons.
      * exists new. split; [done|].
        rewrite (Hout _ Hn). cbn. by rewrite lookup_insert_eq.
      * by apply Hin.
    + intros m Hm. cbn in Hm. apply not_elem_of_cons in Hm as [Hne Hm].
      rewrite (Hout _ Hm). cbn. by rewrite lookup_insert_ne.
Qed.

(** C1.  Creating a figure with keyword overrides, each accepted by the
    constraint of its field, succeeds.  Every overridden field holds its
    override as validated, which is the override itself except that the
    float fields hold [float(override)]; every other field holds the
    documented default: title [""], axes [[]], marks [[]], interaction
    [None], min_width [800.0], min_height [600.0], preserve_aspect [False],
    fig_margin [{top: 60, bottom: 60, left: 60, right: 60}], padding_x
    [0.0], padding_y [0.025], legend_location ["top-right"]. *)
Theorem C1_create_merges_overrides_with_defaults
    (h : heap) (kw : list (trait_name * value)) :
  NoDup kw.*1 ->
  (forall n v, (n, v) ∈ kw ->
     exists new, _validate h (Figure_trait n) v = inr new) ->
  exists w : figure,
    create Figure h kw = (inr tt, w) /\
    (forall n v, (n, v) ∈ kw ->
       exists new,
         _validate h (Figure_trait n) v = inr new /\
         _trait_values w !! n = Some new /\
         (new = v \/
          (In (kind (Figure_trait n)) [CFloat; Float] /\
           exists x, py_float v = inr x /\ new = VFloat x))) /\
    (forall n d, n ∉ kw.*1 ->
       documented_default n = Some d -> _trait_values w !! n = Some d).
Proof.
  intros Hnd Hval.
  destruct (init_kw kw (fresh h) Hnd Hval) as (w & Hrun & _ & Hin & Hout).
  exists w. split.
  { unfold create, bind. rewrite new_Figure. exact Hrun. }
  split.
  - intros n v Hm. destruct (Hin n v Hm) as (new & Hnew & Hst).
    exists new. repeat split; try done. by eapply validate_result.
  - intros n d Hn Hd. rewrite (Hout _ Hn). by apply documented_default_stored.
Qed.

(** ** The scales over the life of a figure *)

Lemma validate_scale (h : heap) (n : trait_name) (v : value) :
  is_scale n = true ->
  _validate h (Figure_trait n) v =
  match v with
  | VNone => inr VNone
  | _ => if isinstance h v Scale then inr v else inl TraitError
  end.
Proof. destruct n; try discriminate; intros _; by destruct v. Qed.





End FigureFacts.

(* ===================================================================== *)
(** * Further properties of [Figure]                                      *)
(* ===================================================================== *)

Section FigureMore.
Context `{FloatParser}.

(** ** The constraints of the remaining fields *)

(** An assignment either succeeds or leaves the figure as it was. *)
Lemma set_outcome (n : trait_name) (v : value) (w : figure) :
  (exists new, _validate (objects w) (Figure_trait n) v = inr new /\
               __set__ Figure n v w = (inr tt, assigned w n new)) \/
  (exists e, _validate (objects w) (Figure_trait n) v = inl e /\
             __set__ Figure n v w = (inl e, w)).
Proof.
  rewrite set_unfold.
  destruct (_validate (objects w) (Figure_trait n) v) as [e|new]; eauto.
Qed.

Lemma validate_title (h : heap) (v : value) :
  _validate h (Figure_trait title) v =
  match v with VStr _ => inr v | _ => inl TraitError end.
Proof. by destruct v. Qed.

Lemma validate_preserve_aspect (h : heap) (v : value) :
  _validate h (Figure_trait preserve_aspect) v =
  match v with VBool _ => inr v | _ => inl TraitError end.
Proof. by destruct v. Qed.

Lemma validate_interaction (h : heap) (v : value) :
  _validate h (Figure_trait interaction) v =
  match v with
  | VNone => inr VNone
  | _ => if isinstance h v Interaction then inr v else inl TraitError
  end.
Proof. by destruct v. Qed.

Lemma validate_padding (h : heap) (n : trait_name) (v : value) :
  n = padding_x \/ n = padding_y ->
  _validate h (Figure_trait n) v =
  match v with
  | VFloat _ => inr v
  | VInt _ | VBool _ =>
      match py_float v with
      | inr x => inr (VFloat x)
      | inl e => inl e
      end
  | _ => inl TraitError
  end.
Proof. intros [-> | ->]; by destruct v. Qed.

Lemma isinstance_live (w : figure) (v : value) (k : pyclass) :
  isinstance (objects w) v k = true <->
  exists r o, v = VRef r /\ objects w !! r = Some o /\
              issubclass (obj_class o) k = true.
Proof.
  unfold isinstance. split.
  - destruct v as [| | | | | | |r]; try discriminate.
    destruct (objects w !! r) as [o|] eqn:Ho; [|discriminate]. eauto.
  - intros (r & o & -> & -> & Hk). exact Hk.
Qed.

Lemma subclass_of_Interaction (c : pyclass) :
  issubclass c Interaction = true <-> In c [Interaction].
Proof. destruct c; cbn; intuition discriminate. Qed.

Lemma subclass_of_Scale (c : pyclass) :
  issubclass c Scale = true <-> In c [Scale; LinearScale].
Proof. destruct c; cbn; intuition discriminate. Qed.


(** X2.  An assignment to [interaction] succeeds exactly when the value is
    [None] or a reference to a live object of class [Interaction]; the
    value is then stored as it is.  Anything else, an object of another
    class such as a scale included, raises [TraitError] and changes
    nothing. *)
Theorem X2_interaction_is_optional_Interaction (v : value) (w : figure) :
  (fst (__set__ Figure interaction v w) = inr tt <->
   v = VNone \/ live_instance w [Interaction] v) /\
  (forall w', __set__ Figure interaction v w = (inr tt, w') ->
              _trait_values w' !! interaction = Some v) /\
  (fst (__set__ Figure interaction v w) <> inr tt ->
   __set__ Figure interaction v w = (inl TraitError, w)).
Proof.
  rewrite set_unfold, validate_interaction.
  assert (isinstance (objects w) v Interaction = true <->
          live_instance w [Interaction] v) as Hlive.
  { rewrite isinstance_live. unfold live_instance.
    split; intros (r & o & ? & ? & ?); exists r, o;
      by rewrite subclass_of_Interaction in *. }
  destruct v; cbn [fst];
    try (destruct (isinstance (objects w) _ Interaction) eqn:Hi; cbn [fst]);
    repeat split; try done; try tauto;
    try (intros w' [= <-]; cbn; by rewrite lookup_insert_eq);
    try (intros [? | Hl]; [done | apply Hlive in Hl; congruence]).
  all: try (intros _; right; by apply Hlive).
Qed.

(** X3.  An assignment of a value other than [None] to [scale_x] or
    [scale_y] succeeds exactly when the value is a reference to a live
    object of class [Scale] or of its subclass [LinearScale]; the value is
    then stored as it is.  Any other value, an [Interaction] object
    included, raises [TraitError] and changes nothing. *)
Theorem X3_scales_hold_Scale_instances
    (n : trait_name) (v : value) (w : figure) :
  is_scale n = true -> v <> VNone ->
  (fst (__set__ Figure n v w) = inr tt <->
   live_instance w [Scale; LinearScale] v) /\
  (forall w', __set__ Figure n v w = (inr tt, w') ->
              _trait_values w' !! n = Some v) /\
  (fst (__set__ Figure n v w) <> inr tt ->
   __set__ Figure n v w = (inl TraitError, w)).
Proof.
  intros Hn Hv. rewrite set_unfold, (validate_scale _ _ _ Hn).
  assert (isinstance (objects w) v Scale = true <->
          live_instance w [Scale; LinearScale] v) as Hlive.
  { rewrite isinstance_live. unfold live_instance.
    split; intros (r & o & ? & ? & ?); exists r, o;
      by rewrite subclass_of_Scale in *. }
  destruct v; [done|..];
    destruct (isinstance (objects w) _ Scale) eqn:Hi; cbn [fst];
    repeat split; try done; try tauto;
    try (intros w' [= <-]; cbn; by rewrite lookup_insert_eq);
    try (intros Hl; apply Hlive in Hl; congruence).
  all: try (intros _; by apply Hlive).
Qed.

(** X4.  An assignment to [preserve_aspect] succeeds exactly when the value
    is a boolean, which is then stored as it is; any other value, the
    integers [0] and [1] included, raises [TraitError] and changes
    nothing: nothing is converted to a boolean. *)
Theorem X4_preserve_aspect_accepts_booleans_only (v : value) (w : figure) :
  (fst (__set__ Figure preserve_aspect v w) = inr tt <->
   exists b, v = VBool b) /\
  (forall w', __set__ Figure preserve_aspect v w = (inr tt, w') ->
              _trait_values w' !! preserve_aspect = Some v) /\
  (fst (__set__ Figure preserve_aspect v w) <> inr tt ->
   __set__ Figure preserve_aspect v w = (inl TraitError, w)) /\
  __set__ Figure preserve_aspect (VInt 1) w = (inl TraitError, w).
Proof.
  rewrite !set_unfold, !validate_preserve_aspect.
  destruct v; cbn; repeat split; try done; try (by intros [? ?]); eauto.
  intros w' [= <-]. cbn. by rewrite lookup_insert_eq.
Qed.

(** X5.  [padding_x] and [padding_y] store a float as it is, a NaN or an
    infinity included; they store an integer or a boolean as
    [float(value)], and raise the error of that conversion when it fails;
    they reject every other value ([None], a text, a list, a dict, an
    object) with [TraitError].  A failed assignment changes nothing. *)
Theorem X5_padding_is_a_plain_float
    (n : trait_name) (v : value) (w : figure) :
  n = padding_x \/ n = padding_y ->
  match v with
  | VFloat _ =>
      exists w', __set__ Figure n v w = (inr tt, w') /\
                 _trait_values w' !! n = Some v
  | VInt _ | VBool _ =>
      match py_float v with
      | inr x =>
          exists w', __set__ Figure n v w = (inr tt, w') /\
                     _trait_values w' !! n = Some (VFloat x)
      | inl e => __set__ Figure n v w = (inl e, w)
      end
  | VNone | VStr _ | VList _ | VDict _ | VRef _ =>
      __set__ Figure n v w = (inl TraitError, w)
  end.
Proof.
  intros Hn. rewrite set_unfold, (validate_padding _ _ _ Hn).
  destruct v; try done.
  - destruct (py_float (VBool b)); [done|].
    eexists. split; [done|]. cbn. by rewrite lookup_insert_eq.
  - destruct (py_float (VInt n0)); [done|].
    eexists. split; [done|]. cbn. by rewrite lookup_insert_eq.
  - eexists. split; [done|]. cbn. by rewrite lookup_insert_eq.
Qed.

(** ** Reading *)

(** X6.  A read that succeeds stores the value it returns under the field
    read and changes no other field, no handler and no call made: no
    handler is notified, even when the read builds a scale.  Either the
    field was stored and the heap stays as it is, or the field is a scale
    not stored yet and the heap gains one object at its end, the returned
    [LinearScale(min=0, max=1)], so that no object that existed is
    disturbed or returned. *)
Theorem X6_reading_only_builds_a_missing_scale
    (n : trait_name) (v : value) (w w' : figure) :
  __get__ Figure n w = (inr v, w') ->
  _trait_values w' = <[n := v]> (_trait_values w) /\
  _trait_notifiers w' = _trait_notifiers w /\
  calls w' = calls w /\
  ((_trait_values w !! n = Some v /\ w' = w) \/
   (_trait_values w !! n = None /\ is_scale n = true /\
    v = VRef (List.length (objects w)) /\
    objects w' = objects w ++ [default_scale])).
Proof.
  intros Hget. destruct (_trait_values w !! n) as [u|] eqn:Hu.
  - rewrite (get_stored _ _ _ Hu) in Hget. injection Hget as <- <-.
    repeat split; [|by left]. by rewrite insert_id.
  - rewrite (get_not_stored _ _ Hu) in Hget.
    destruct (is_scale n); [|done]. injection Hget as <- <-.
    repeat split. by right.
Qed.

(** A read that fails changes nothing. *)
Lemma get_fails (n : trait_name) (e : exn) (w w' : figure) :
  __get__ Figure n w = (inl e, w') -> w' = w /\ e = TraitError.
Proof.
  destruct (_trait_values w !! n) as [u|] eqn:Hu.
  - by rewrite (get_stored _ _ _ Hu).
  - rewrite (get_not_stored _ _ Hu). destruct (is_scale n); [done|].
    by intros [= <- <-].
Qed.

(** X7.  After a successful assignment, reading the field gives the value
    that was validated and stored, and the read changes nothing; so a
    scale that was assigned is returned as it is and no default scale is
    built in its place. *)
Theorem X7_read_after_write
    (n : trait_name) (v : value) (w w' : figure) :
  __set__ Figure n v w = (inr tt, w') ->
  exists new,
    _validate (objects w) (Figure_trait n) v = inr new /\
    __get__ Figure n w' = (inr new, w') /\
    objects w' = objects w.
Proof.
  intros (new & Hnew & ->)%set_ok. exists new. split; [done|].
  split; [|done]. apply get_stored. cbn. by rewrite lookup_insert_eq.
Qed.

(** ** What holds in every state *)

(** A validated value passes the constraint again, unchanged. *)
Lemma validate_idem (h : heap) (n : trait_name) (v new : value) :
  _validate h (Figure_trait n) v = inr new ->
  _validate h (Figure_trait n) new = inr new.
Proof.
  intros Hv. destruct (validate_result _ _ _ _ Hv) as [-> | (Hk & x & _ & ->)];
    [done|].
  destruct n; cbn in Hk; try (by intuition discriminate); reflexivity.
Qed.

(** A value that passes a constraint still passes it when the heap has
    grown. *)
Lemma validate_heap_mono (h h' : heap) (n : trait_name) (v new : value) :
  _validate h (Figure_trait n) v = inr new ->
  _validate (h ++ h') (Figure_trait n) v = inr new.
Proof.
  destruct n; try (intros Hv; exact Hv).
  all: unfold _validate, validate, trait_allow_none;
    cbn [Figure_trait kind allow_none];
    destruct v as [| | | | | | |r]; try (intros Hv; exact Hv);
    unfold isinstance; destruct (h !! r) as [o|] eqn:Ho; [|done];
    by rewrite (lookup_app_l_Some _ _ _ _ Ho).
Qed.

Lemma exec_stored_static (o : op) (w : figure) :
  stored_static w -> stored_static (exec o w).
Proof.
  intros Hw n Hn. destruct o as [m | m v | c m]; cbn [exec].
  - destruct (_trait_values w !! m) as [u|] eqn:Hm.
    + rewrite (get_stored _ _ _ Hm). by apply Hw.
    + rewrite (get_not_stored _ _ Hm).
      destruct (is_scale m); cbn; [|by apply Hw].
      apply lookup_insert_is_Some'. right. by apply Hw.
  - destruct (set_outcome m v w) as [(new & _ & ->) | (e & _ & ->)]; cbn;
      [|by apply Hw].
    apply lookup_insert_is_Some'. right. by apply Hw.
  - cbn. by apply Hw.
Qed.

Lemma exec_stored_valid (o : op) (w : figure) :
  stored_valid w -> stored_valid (exec o w).
Proof.
  intros Hw n u. destruct o as [m | m v | c m]; cbn [exec].
  - destruct (_trait_values w !! m) as [u'|] eqn:Hm.
    + rewrite (get_stored _ _ _ Hm). by apply Hw.
    + rewrite (get_not_stored _ _ Hm).
      destruct (is_scale m) eqn:Hs; cbn; [|by apply Hw].
      destruct (decide (m = n)) as [->|Hne].
      * rewrite lookup_insert_eq. intros [= <-].
        rewrite (validate_scale _ _ _ Hs). unfold isinstance.
        by rewrite (list_lookup_middle (objects w) [] default_scale).
      * rewrite lookup_insert_ne by done. intros Hu.
        apply validate_heap_mono. by apply Hw.
  - destruct (set_outcome m v w) as [(new & Hnew & ->) | (e & _ & ->)]; cbn;
      [|by apply Hw].
    destruct (decide (m = n)) as [->|Hne].
    + rewrite lookup_insert_eq. intros [= <-]. by eapply validate_idem.
    + rewrite lookup_insert_ne by done. by apply Hw.
  - cbn. by apply Hw.
Qed.

Lemma fresh_stored_static (h : heap) : stored_static (fresh h).
Proof. intros n Hn. destruct n; try discriminate; eexists; by vm_compute. Qed.

Lemma fresh_stored_valid (h : heap) : stored_valid (fresh h).
Proof.
  intros n v Hv. destruct n; vm_compute in Hv; try discriminate;
    injection Hv as <-; reflexivity.
Qed.

(** What every operation keeps, the keywords of a creation keep. *)
Lemma init_keeps (P : figure -> Prop) (kw : list (trait_name * value))
    (w w' : figure) :
  (forall m v w, P w -> P (exec (Set_ m v) w)) ->
  __init__ Figure kw w = (inr tt, w') -> P w -> P w'.
Proof.
  intros Hstep. revert w. induction kw as [|[m v] kw IH]; intros w Hrun Hw.
  - by injection Hrun as <-.
  - unfold __init__ in *. cbn [for_each] in Hrun. unfold bind at 1 in Hrun.
    cbn [fst snd] in *.
    destruct (__set__ Figure m v w) as [[e|[]] w1] eqn:Hset; [done|].
    apply (IH w1 Hrun).
    replace w1 with (exec (Set_ m v) w) by (cbn [exec]; by rewrite Hset).
    by apply Hstep.
Qed.

Lemma reachable_stored (w : figure) :
  reachable w -> stored_static w /\ stored_valid w.
Proof.
  induction 1 as [h kw w Hcreate | o w _ [IHs IHv]].
  - unfold create, bind in Hcreate. rewrite new_Figure in Hcreate. split.
    + apply (init_keeps stored_static kw (fresh h) w);
        [intros; by apply exec_stored_static | done | apply fresh_stored_static].
    + apply (init_keeps stored_valid kw (fresh h) w);
        [intros; by apply exec_stored_valid | done | apply fresh_stored_valid].
  - split; [by apply exec_stored_static | by apply exec_stored_valid].
Qed.

(** X8.  In every state of a figure each field holds a value of the kind
    it was declared with: the title is a text, [axes] and [marks] are
    lists, the four sizes and paddings are floats, [preserve_aspect] is a
    boolean, [legend_location] is one of the eight places, [fig_margin] is
    a dict or [None], [interaction] is [None] or a live [Interaction]
    object, and a stored scale is [None] or a live [Scale] object. *)
Theorem X8_fields_keep_their_kind (w : figure) :
  reachable w ->
  (exists s, _trait_values w !! title = Some (VStr s)) /\
  (exists l, _trait_values w !! axes = Some (VList l)) /\
  (exists l, _trait_values w !! marks = Some (VList l)) /\
  (exists x, _trait_values w !! min_width = Some (VFloat x)) /\
  (exists x, _trait_values w !! min_height = Some (VFloat x)) /\
  (exists x, _trait_values w !! padding_x = Some (VFloat x)) /\
  (exists x, _trait_values w !! padding_y = Some (VFloat x)) /\
  (exists b, _trait_values w !! preserve_aspect = Some (VBool b)) /\
  (exists s,
      In s ["top-right"; "top"; "top-left"; "left";
            "bottom-left"; "bottom"; "bottom-right"; "right"] /\
      _trait_values w !! legend_location = Some (VStr s)) /\
  (_trait_values w !! fig_margin = Some VNone \/
   exists d, _trait_values w !! fig_margin = Some (VDict d)) /\
  (_trait_values w !! interaction = Some VNone \/
   exists v, _trait_values w !! interaction = Some v /\
             live_instance w [Interaction] v) /\
  (forall n v, is_scale n = true -> _trait_values w !! n = Some v ->
               v = VNone \/ live_instance w [Scale; LinearScale] v).
Proof.
  intros [Hs Hv]%reachable_stored.
  assert (forall n, is_scale n = false ->
            exists v, _trait_values w !! n = Some v /\
                      _validate (objects w) (Figure_trait n) v = inr v) as Hf.
  { intros n Hn. destruct (Hs n Hn) as [v Hl]. exists v. split; [done|].
    by apply Hv. }
  repeat split.
  - destruct (Hf title eq_refl) as (v & -> & Hok).
    rewrite validate_title in Hok. destruct v; try discriminate. eauto.
  - destruct (Hf axes eq_refl) as (v & -> & Hok).
    rewrite validate_list in Hok by tauto. destruct v; try discriminate. eauto.
  - destruct (Hf marks eq_refl) as (v & -> & Hok).
    rewrite validate_list in Hok by tauto. destruct v; try discriminate. eauto.
  - destruct (Hf min_width eq_refl) as (v & -> & Hok).
    rewrite validate_casting in Hok by tauto.
    destruct (py_float v); [done|]. injection Hok as <-. eauto.
  - destruct (Hf min_height eq_refl) as (v & -> & Hok).
    rewrite validate_casting in Hok by tauto.
    destruct (py_float v); [done|]. injection Hok as <-. eauto.
  - destruct (Hf padding_x eq_refl) as (v & -> & Hok).
    rewrite validate_padding in Hok by tauto.
    destruct v; try discriminate; eauto; by destruct (py_float _).
  - destruct (Hf padding_y eq_refl) as (v & -> & Hok).
    rewrite validate_padding in Hok by tauto.
    destruct v; try discriminate; eauto; by destruct (py_float _).
  - destruct (Hf preserve_aspect eq_refl) as (v & -> & Hok).
    rewrite validate_preserve_aspect in Hok.
    destruct v; try discriminate. eauto.
  - destruct (Hf legend_location eq_refl) as (v & -> & Hok).
    rewrite validate_legend_location in Hok.
    destruct (py_in v (map VStr legend_locations)) eqn:Hin; [|done].
    apply py_in_texts in Hin as (s & Hs' & ->). eauto.
  - destruct (Hf fig_margin eq_refl) as (v & -> & Hok).
    rewrite validate_fig_margin in Hok. destruct v; try discriminate; eauto.
  - destruct (Hf interaction eq_refl) as (v & Hl & Hok).
    rewrite validate_interaction in Hok.
    assert (v = VNone \/ isinstance (objects w) v Interaction = true)
      as [-> | Hi].
    { destruct v; [by left|..]; right; by destruct (isinstance _ _ _). }
    { by left. }
    right. exists v. split; [done|].
    apply isinstance_live in Hi as (r & o & ? & ? & ?). exists r, o.
    by rewrite <- subclass_of_Interaction.
  - intros n v Hn Hl. pose proof (Hv n v Hl) as Hok.
    rewrite (validate_scale _ _ _ Hn) in Hok.
    assert (v = VNone \/ isinstance (objects w) v Scale = true)
      as [-> | Hi].
    { destruct v; [by left|..]; right; by destruct (isinstance _ _ _). }
    { by left. }
    right.
    apply isinstance_live in Hi as (r & o & ? & ? & ?). exists r, o.
    by rewrite <- subclass_of_Scale.
Qed.

(** X9.  In every state of a figure every field can be read: the read
    returns a value and never raises. *)
Theorem X9_every_field_reads (w : figure) (n : trait_name) :
  reachable w -> exists v w', __get__ Figure n w = (inr v, w').
Proof.
  intros [Hs _]%reachable_stored.
  destruct (_trait_values w !! n) as [u|] eqn:Hu.
  - exists u, w. by apply get_stored.
  - rewrite (get_not_stored _ _ Hu). destruct (is_scale n) eqn:Hn.
    + by eexists _, _.
    + destruct (Hs n Hn) as [u' Hu']. congruence.
Qed.


(** ** Creation *)

(** What every assignment keeps, a creation that succeeds keeps from the
    first keyword on; and each keyword was accepted. *)
Lemma init_valid (kw : list (trait_name * value)) (w w' : figure) :
  __init__ Figure kw w = (inr tt, w') ->
  forall n v, (n, v) ∈ kw ->
    exists new, _validate (objects w) (Figure_trait n) v = inr new.
Proof.
  revert w. induction kw as [|[m u] kw IH]; intros w Hrun n v Hin.
  - by apply elem_of_nil in Hin.
  - unfold __init__ in *. cbn [for_each] in Hrun. unfold bind at 1 in Hrun.
    cbn [fst snd] in *.
    destruct (set_outcome m u w) as [(new & Hnew & Hset) | (e & _ & Hset)];
      rewrite Hset in Hrun; [|done].
    apply elem_of_cons in Hin as [[= -> ->] | Hin]; [eauto|].
    by apply (IH _ Hrun).
Qed.

(** X11.  A creation with a keyword that the constraint of its field
    rejects raises: no figure is built with the keyword dropped or
    replaced by the default. *)
Theorem X11_create_raises_on_rejected_keyword
    (h : heap) (kw : list (trait_name * value))
    (n : trait_name) (v : value) (e : exn) :
  (n, v) ∈ kw ->
  _validate h (Figure_trait n) v = inl e ->
  exists e' w, create Figure h kw = (inl e', w).
Proof.
  intros Hin Hv.
  destruct (create Figure h kw) as [[e'|[]] w] eqn:Hc; [by eauto|].
  unfold create, bind in Hc. rewrite new_Figure in Hc.
  destruct (init_valid _ _ _ Hc n v Hin) as [new Hnew]. cbn in Hnew. congruence.
Qed.

Lemma set_keeps_quiet (h : heap) (m : trait_name) (v : value) (w : figure) :
  quiet h w -> quiet h (exec (Set_ m v) w).
Proof.
  intros (Ho & Hn & Hc). cbn [exec].
  destruct (set_outcome m v w) as [(new & _ & ->) | (e & _ & ->)]; [|done].
  unfold quiet, assigned, notified. cbn. rewrite Hn, Hc, !lookup_empty. cbn.
  by destruct (py_eq _ _).
Qed.

(** X12.  The figure that a creation builds does not depend on the order
    of its keywords: two orders of the same keywords, each naming a field
    once, build the same state. *)
Theorem X12_create_ignores_keyword_order
    (h : heap) (kw kw' : list (trait_name * value)) (w : figure) :
  kw ≡ₚ kw' -> NoDup kw.*1 ->
  create Figure h kw = (inr tt, w) ->
  create Figure h kw' = (inr tt, w).
Proof.
  intros Hperm Hnd Hc.
  unfold create, bind in *. rewrite new_Figure in *.
  assert (NoDup kw'.*1) as Hnd' by (by rewrite <- Hperm).
  pose proof (init_valid _ _ _ Hc) as Hval.
  assert (forall n v, (n, v) ∈ kw' ->
            exists new, _validate (objects (fresh h)) (Figure_trait n) v
                        = inr new) as Hval'.
  { intros n v Hin. apply Hval. by rewrite Hperm. }
  destruct (init_kw kw (fresh h) Hnd Hval) as (w1 & Hrun & _ & Hin & Hout).
  destruct (init_kw kw' (fresh h) Hnd' Hval') as (w2 & Hrun' & _ & Hin' & Hout').
  pose proof (eq_trans (eq_sym Hrun) Hc) as [= ->]. clear Hc.
  transitivity (__init__ Figure kw' (fresh h)); [done|]. rewrite Hrun'. f_equal.
  assert (quiet h w) as (Ho & Hn & Hcl).
  { apply (init_keeps (quiet h) kw (fresh h) w);
      [intros; by apply set_keeps_quiet | done | done]. }
  assert (quiet h w2) as (Ho' & Hn' & Hcl').
  { apply (init_keeps (quiet h) kw' (fresh h) w2);
      [intros; by apply set_keeps_quiet | done | done]. }
  destruct w as [o1 v1 n1 c1], w2 as [o2 v2 n2 c2].
  cbn [objects _trait_values _trait_notifiers calls] in *. subst.
  f_equal. apply map_eq. intros n.
  destruct (decide (n ∈ kw.*1)) as [Hk | Hk].
  - apply list_elem_of_fmap in Hk as ([n' v] & -> & Hk). cbn [fst].
    destruct (Hin _ _ Hk) as (new & Hnew & Hl).
    assert ((n', v) ∈ kw') as Hk' by (by rewrite <- Hperm).
    destruct (Hin' _ _ Hk') as (new' & Hnew' & Hl').
    rewrite Hl, Hl'. congruence.
  - rewrite (Hout _ Hk), Hout'; [done|]. by rewrite <- Hperm.
Qed.

End FigureMore.

(* ===================================================================== *)
(** * Closed runs                                                         *)
(* ===================================================================== *)

(** C1 at work: a figure created on an empty heap with a title, an integer
    width and a legend place. *)
Lemma C1_witness :
  NoDup some_kw.*1 /\
  exists w : figure,
    @create no_text trait_name _ _ Figure [] some_kw = (inr tt, w) /\
    (forall n v, (n, v) ∈ some_kw ->
       exists new,
         @_validate no_text [] (Figure_trait n) v = inr new /\
         _trait_values w !! n = Some new /\
         (new = v \/
          (In (kind (Figure_trait n)) [CFloat; Float] /\
           exists x, @py_float no_text v = inr x /\ new = VFloat x))) /\
    (forall n d, n ∉ some_kw.*1 ->
       documented_default n = Some d -> _trait_values w !! n = Some d).
Proof.
  assert (NoDup some_kw.*1) as Hnd by compute_done.
  split; [exact Hnd|].
  apply (@C1_create_merges_overrides_with_defaults no_text [] some_kw Hnd).
  intros n v Hin. unfold some_kw in Hin.
  repeat (apply elem_of_cons in Hin as [[= -> ->] | Hin]);
    [by eexists .. | by apply elem_of_nil in Hin].
Defined.

(** The creation with [some_kw] on an empty heap succeeds. *)
Lemma some_kw_creates :
  @create no_text trait_name _ _ Figure [] some_kw =
  (inr tt, snd (@create no_text trait_name _ _ Figure [] some_kw)).
Proof. by vm_compute. Qed.



(** The assignment of the title succeeds. *)
Lemma set_title_runs : set_title = (inr tt, snd set_title).
Proof. by vm_compute. Qed.


(** C9 at work: assigning the title leaves [legend_location] alone. *)
Lemma C9_witness :
  @__set__ no_text trait_name _ _ Figure title (VStr "Revenue") observed =
    (inr tt, snd set_title) /\
  _trait_values (snd set_title) !! legend_location =
    _trait_values observed !! legend_location /\
  objects (snd set_title) = objects observed /\
  _trait_notifiers (snd set_title) = _trait_notifiers observed.
Proof.
  split; [exact set_title_runs|].
  destruct (@C9_set_changes_only_named_field no_text title (VStr "Revenue")
              observed _ set_title_runs) as (Hframe & Hobj & Hnot).
  split; [by apply Hframe | by split].
Defined.

(** C10 at work: the integer [500] is stored in [min_width] as [500.0]. *)
Lemma C10_witness :
  (min_width = min_width \/ min_width = min_height) /\
  exists w' : figure,
    @__set__ no_text trait_name _ _ Figure min_width (VInt 500) (fresh []) =
      (inr tt, w') /\
    _trait_values w' !! min_width = Some (VFloat (float_lit 5000 1)).
Proof.
  split; [by left|].
  destruct (@C10_casting_floats no_text min_width (fresh []) (or_introl eq_refl))
    as (_ & _ & _ & Hcast & _).
  apply (Hcast (VInt 500)). by vm_compute.
Defined.

(** C3, the claim as stated fails: assigning the dict
    [{top: 10, bottom: 10, left: 10}], which lacks the key ["right"], to
    [fig_margin] of a new figure does not raise; the dict is stored. *)
Lemma C3_counterexample :
  @create no_text trait_name _ _ Figure [] [] = (inr tt, fresh []) /\
  dict_get "right" margin_without_right = None /\
  fst (@__set__ no_text trait_name _ _ Figure fig_margin
         (VDict margin_without_right) (fresh [])) = inr tt /\
  _trait_values
    (snd (@__set__ no_text trait_name _ _ Figure fig_margin
            (VDict margin_without_right) (fresh []))) !! fig_margin =
    Some (VDict margin_without_right).
Proof. by vm_compute. Qed.



(** C10, the claim as stated fails: the integer [2 ** 1024] is a numeric
    value, and assigning it to [min_width] raises [TraitError]. *)
Lemma C10_counterexample :
  @create no_text trait_name _ _ Figure [] [] = (inr tt, fresh []) /\
  @__set__ no_text trait_name _ _ Figure min_width (VInt (2 ^ 1024))
    (fresh []) = (inl TraitError, fresh []).
Proof. by vm_compute. Qed.

(* ===================================================================== *)
(** * Closed runs of the further properties                               *)
(* ===================================================================== *)

(** The state [session_state] is a state of a figure, and so is
    [observed]. *)
Lemma session_state_reachable : @reachable no_text session_state.
Proof.
  unfold session_state, some_session. cbn [fold_left].
  repeat apply (@reach_exec no_text).
  exact (@reach_create no_text [] some_kw _ some_kw_creates).
Qed.


(** The first read of [scale_x] on a new figure builds object [0]. *)
Lemma read_scale_x_runs :
  read_scale_x = (inr (VRef 0%nat), snd read_scale_x).
Proof. by vm_compute. Qed.

(** X3 at work: on a heap with a scale and an interaction, [scale_x]
    takes the reference of the scale. *)
Lemma X3_witness :
  is_scale scale_x = true /\ VRef 0%nat <> VNone /\
  (fst (@__set__ no_text trait_name _ _ Figure scale_x (VRef 0%nat)
          (fresh two_objects)) = inr tt <->
   live_instance (fresh two_objects) [Scale; LinearScale] (VRef 0%nat)) /\
  (forall w',
      @__set__ no_text trait_name _ _ Figure scale_x (VRef 0%nat)
        (fresh two_objects) = (inr tt, w') ->
      _trait_values w' !! scale_x = Some (VRef 0%nat)) /\
  (fst (@__set__ no_text trait_name _ _ Figure scale_x (VRef 0%nat)
          (fresh two_objects)) <> inr tt ->
   @__set__ no_text trait_name _ _ Figure scale_x (VRef 0%nat)
     (fresh two_objects) = (inl TraitError, fresh two_objects)).
Proof.
  split; [reflexivity|]. split; [discriminate|].
  apply (@X3_scales_hold_Scale_instances no_text scale_x (VRef 0%nat)
           (fresh two_objects) eq_refl).
  discriminate.
Defined.

(** X5 at work: the integer [3] is stored in [padding_x] as [3.0]. *)
Lemma X5_witness :
  (padding_x = padding_x \/ padding_x = padding_y) /\
  exists w',
    @__set__ no_text trait_name _ _ Figure padding_x (VInt 3) (fresh []) =
      (inr tt, w') /\
    _trait_values w' !! padding_x = Some (VFloat (float_of_Z 3)).
Proof.
  split; [by left|].
  exact (@X5_padding_is_a_plain_float no_text padding_x (VInt 3) (fresh [])
           (or_introl eq_refl)).
Defined.

(** X6 at work: the first read of [scale_x] on a new figure. *)
Lemma X6_witness :
  read_scale_x = (inr (VRef 0%nat), snd read_scale_x) /\
  _trait_values (snd read_scale_x) =
    <[scale_x := VRef 0%nat]> (_trait_values (fresh [])) /\
  _trait_notifiers (snd read_scale_x) = _trait_notifiers (fresh []) /\
  calls (snd read_scale_x) = calls (fresh []) /\
  ((_trait_values (fresh []) !! scale_x = Some (VRef 0%nat) /\
    snd read_scale_x = fresh []) \/
   (_trait_values (fresh []) !! scale_x = None /\
    is_scale scale_x = true /\
    VRef 0%nat = VRef (List.length (objects (fresh []))) /\
    objects (snd read_scale_x) = objects (fresh []) ++ [default_scale])).
Proof.
  split; [exact read_scale_x_runs|].
  exact (@X6_reading_only_builds_a_missing_scale no_text scale_x
           (VRef 0%nat) (fresh []) (snd read_scale_x) read_scale_x_runs).
Defined.

(** X7 at work: the title that was assigned is the title that is read. *)
Lemma X7_witness :
  set_title = (inr tt, snd set_title) /\
  exists new,
    @_validate no_text (objects observed) (Figure_trait title)
      (VStr "Revenue") = inr new /\
    @__get__ no_text trait_name _ _ Figure title (snd set_title) =
      (inr new, snd set_title) /\
    objects (snd set_title) = objects observed.
Proof.
  split; [exact set_title_runs|].
  exact (@X7_read_after_write no_text title (VStr "Revenue") observed
           (snd set_title) set_title_runs).
Defined.

(** X8 at work: after a creation and a session the legend is still at
    one of the eight places. *)
Lemma X8_witness :
  @reachable no_text session_state /\
  exists s,
    In s ["top-right"; "top"; "top-left"; "left";
          "bottom-left"; "bottom"; "bottom-right"; "right"] /\
    _trait_values session_state !! legend_location = Some (VStr s).
Proof.
  split; [exact session_state_reachable|].
  apply (@X8_fields_keep_their_kind no_text session_state
           session_state_reachable).
Defined.

(** X9 at work: after a creation and a session [interaction] reads. *)
Lemma X9_witness :
  @reachable no_text session_state /\
  exists v w',
    @__get__ no_text trait_name _ _ Figure interaction session_state =
    (inr v, w').
Proof.
  split; [exact session_state_reachable|].
  exact (@X9_every_field_reads no_text session_state interaction
           session_state_reachable).
Defined.


(** X11 at work: a creation with the legend at ["center"] raises. *)
Lemma X11_witness :
  (legend_location, VStr "center") ∈ bad_kw /\
  @_validate no_text [] (Figure_trait legend_location) (VStr "center") =
    inl TraitError /\
  exists e' w, @create no_text trait_name _ _ Figure [] bad_kw = (inl e', w).
Proof.
  assert ((legend_location, VStr "center") ∈ bad_kw) as Hin.
  { unfold bad_kw. apply elem_of_cons. right. apply elem_of_cons. by left. }
  split; [exact Hin|]. split; [reflexivity|].
  exact (@X11_create_raises_on_rejected_keyword no_text [] bad_kw
           legend_location (VStr "center") TraitError Hin eq_refl).
Defined.

(** X12 at work: the keywords [some_kw] in another order build the same
    figure. *)
Lemma X12_witness :
  some_kw ≡ₚ some_kw_reordered /\
  NoDup some_kw.*1 /\
  @create no_text trait_name _ _ Figure [] some_kw =
    (inr tt, snd (@create no_text trait_name _ _ Figure [] some_kw)) /\
  @create no_text trait_name _ _ Figure [] some_kw_reordered =
    (inr tt, snd (@create no_text trait_name _ _ Figure [] some_kw)).
Proof.
  assert (some_kw ≡ₚ some_kw_reordered) as Hp.
  { symmetry. apply (Permutation_cons_append
      [(title, VStr "Revenue"); (min_width, VInt 500)]
      (legend_location, VStr "bottom")). }
  assert (NoDup some_kw.*1) as Hnd by compute_done.
  split; [exact Hp|]. split; [exact Hnd|]. split; [exact some_kw_creates|].
  exact (@X12_create_ignores_keyword_order no_text [] some_kw
           some_kw_reordered _ Hp Hnd some_kw_creates).
Defined.
